(** * Kochi fleet dashboard: the trainset generator and the optimization panel

    A shallow embedding of the two React components of the repository,
    [MetroDashboard.tsx] (the fleet generator [generateTrainsetData]) and
    [OptimizationPanel.tsx] ([runOptimization] and the sorted result view),
    together with the properties of the induction optimizer they stand for.

    Numbers are JavaScript numbers (IEEE binary64).  The values met here are
    non-negative and far from overflow, so a number is kept as the dyadic
    rational it denotes and every operation rounds to nearest, ties to even.
    [Math.random] and [new Date] read two oracles of the environment; the
    components thread the number of reads through a state monad. *)

From Stdlib Require Import ZArith Bool List Lia String Ascii DecimalString.
From Stdlib Require Import Sorting.Permutation Sorting.Sorted.
From ExtLib Require Import Structures.Monad Data.Monads.StateMonad.
Import ListNotations.
Import MonadNotation.
Local Open Scope monad_scope.
Local Open Scope Z_scope.

(** ** JavaScript numbers *)

Module Number.

(** The number [sig / 2 ^ scale]. *)
Record double := Dy { sig : Z; scale : Z }.

Definition of_int (n : Z) : double := Dy n 0.

(** [p / 2 ^ s] rounded to the nearest integer, ties to even; [sticky]
    records that non-zero bits were dropped below [p]. *)
Definition rne (p s : Z) (sticky : bool) : Z :=
  let q := p / 2 ^ s in
  let r := p mod 2 ^ s in
  let h := 2 ^ (s - 1) in
  if r <? h then q
  else if h <? r then q + 1
  else if sticky then q + 1
  else if Z.even q then q else q + 1.

(** The binary64 number nearest to [p / 2 ^ k]: 53 significant bits, and
    no bit below [2 ^ -1074]. *)
Definition round53 (p k : Z) (sticky : bool) : double :=
  let s := Z.max (Z.log2 p - 52) (k - 1074) in
  if s <=? 0 then Dy p k
  else if s <=? k then Dy (rne p s sticky) (k - s)
  else Dy (rne p s sticky * 2 ^ (s - k)) 0.

(** [x * y] *)
Definition mul (x y : double) : double :=
  round53 (sig x * sig y) (scale x + scale y) false.

(** [x / y], for [y] positive: the quotient is taken with 64 bits to
    spare and a sticky bit for the remainder. *)
Definition div (x y : double) : double :=
  let a := sig x * 2 ^ scale y in
  let b := sig y * 2 ^ scale x in
  let t := Z.log2 b + 64 in
  round53 (a * 2 ^ t / b) t (negb ((a * 2 ^ t) mod b =? 0)).

(** A decimal literal [n / d], such as [0.1] for [decimal 1 10]. *)
Definition decimal (n d : Z) : double := div (of_int n) (of_int d).

(** [Math.floor(x)] *)
Definition floor (x : double) : Z := sig x / 2 ^ scale x.

(** [x > y] and [x <= y] *)
Definition gtb (x y : double) : bool :=
  sig y * 2 ^ scale x <? sig x * 2 ^ scale y.
Definition leb (x y : double) : bool :=
  sig x * 2 ^ scale y <=? sig y * 2 ^ scale x.

(** The numbers [Math.random] can return: the doubles of [[0, 1)]. *)
Definition unit_interval (x : double) : bool :=
  (0 <=? sig x) && (sig x <? 2 ^ 53) && (53 <=? scale x) && (scale x <=? 1074).

Record draw := Draw { value : double; in_unit : unit_interval value = true }.

End Number.

Import Number.

Notation "# n" := (Number.of_int n) (at level 9, n at level 9, format "# n").

(** ** JavaScript arrays and strings *)

(** [xs[k]], [None] standing for [undefined]. *)
Definition index {A} (xs : list A) (k : Z) : option A :=
  if k <? 0 then None else nth_error xs (Z.to_nat k).

(** [xs.slice(0, k)] *)
Definition slice0 {A} (xs : list A) (k : Z) : list A :=
  if k <? 0 then firstn (Z.to_nat (Z.max (Z.of_nat (List.length xs) + k) 0)) xs
  else firstn (Z.to_nat k) xs.

(** [String(n)] for an integer [n] *)
Definition String_of (n : Z) : string := NilZero.string_of_int (Z.to_int n).

Fixpoint repeat_char (c : ascii) (n : nat) : string :=
  match n with
  | O => EmptyString
  | S n' => String c (repeat_char c n')
  end.

(** [s.padStart(n, c)] with a one-character filler *)
Definition padStart (s : string) (n : nat) (c : ascii) : string :=
  (repeat_char c (n - String.length s) ++ s)%string.

(** ** The data model of [MetroDashboard.tsx] *)

Inductive Status := operational | standby_status | maintenance_status | critical.
Inductive Action := induct | standby | maintenance.
Inductive Priority := high | medium | low.

Module Fitness.
Record t := mk { rollingStock : bool; signalling : bool; telecom : bool }.
End Fitness.

Module JobCards.
Record t := mk { open : Z; total : Z }.
End JobCards.

Module Branding.
Record t := mk { priority : option Priority; exposure : Z; target : Z }.
End Branding.

Module Mileage.
Record t := mk { current : Z; target : Z; variance : Z }.
End Mileage.

Module Cleaning.
Record t := mk { scheduled : bool; priority : Z }.
End Cleaning.

Module StablingBay.
Record t := mk { current : string; optimal : string; shuntingTime : Z }.
End StablingBay.

Record TrainsetStatus := {
  id : string;
  number : string;
  status : option Status;
  fitness : Fitness.t;
  jobCards : JobCards.t;
  branding : Branding.t;
  mileage : Mileage.t;
  cleaning : Cleaning.t;
  stablingBay : StablingBay.t;
  lastUpdated : Z;
  recommendedAction : option Action;
  confidenceScore : Z
}.

(** ** The data model of [OptimizationPanel.tsx] *)

Record OptimizationResult := {
  trainsetId : string;
  action : option Action;
  score : Z;
  reasoning : list string;
  constraints : list string;
  timestamp : Z
}.

Record OptimizationMetrics := {
  serviceReadiness : Z;
  costEfficiency : Z;
  brandingCompliance : Z;
  maintenanceOptimization : Z;
  stablingEfficiency : Z;
  overallScore : Z
}.

(** The [useState] cells of the panel. *)
Record PanelState := {
  isOptimizing : bool;
  progress : double;
  results : list OptimizationResult;
  metrics : option OptimizationMetrics;
  optimizationLogs : list string
}.

(** The page: how many times the two oracles were read, the panel, and the
    values handed to [setProgress] so far, oldest first. *)
Record Page := {
  random_calls : nat;
  date_calls : nat;
  panel : PanelState;
  progress_signal : list double
}.

Definition initial_panel : PanelState :=
  {| isOptimizing := false; progress := #0; results := [];
     metrics := None; optimizationLogs := [] |}.

Definition initial_page : Page :=
  {| random_calls := 0; date_calls := 0; panel := initial_panel;
     progress_signal := [] |}.

(** [Array.from({ length: n }, (_, i) => f i)]: the elements are built in
    index order. *)
Fixpoint Array_from_at {St A} (f : nat -> state St A) (i n : nat)
  : state St (list A) :=
  match n with
  | O => ret []
  | S n' =>
      x <- f i ;;
      xs <- Array_from_at f (S i) n' ;;
      ret (x :: xs)
  end.

Definition Array_from {St A} (n : nat) (f : nat -> state St A)
  : state St (list A) :=
  Array_from_at f 0 n.

(** [for (let i = 0; i < n; i++) body i], counting from [i]. *)
Fixpoint for_loop_at {St} (body : nat -> state St unit) (i n : nat)
  : state St unit :=
  match n with
  | O => ret tt
  | S n' => body i ;; for_loop_at body (S i) n'
  end.

Definition for_loop {St} (n : nat) (body : nat -> state St unit) : state St unit :=
  for_loop_at body 0 n.

(** The page after [r] more calls of [Math.random] and [c] of [new Date],
    and a page that has seen [r] and [c] calls and nothing else. *)
Definition advance (r c : nat) (s : Page) : Page :=
  {| random_calls := r + random_calls s; date_calls := c + date_calls s;
     panel := panel s; progress_signal := progress_signal s |}.

Definition reads (r c : nat) : Page :=
  {| random_calls := r; date_calls := c; panel := initial_panel;
     progress_signal := [] |}.

Section Components.

(** The environment: the k-th number returned by [Math.random] and the
    k-th instant returned by [new Date]. *)
Variable random_source : nat -> draw.
Variable clock : nat -> Z.

Definition Math_random : state Page double :=
  mkState (fun s =>
    (value (random_source (random_calls s)),
     {| random_calls := S (random_calls s); date_calls := date_calls s;
        panel := panel s; progress_signal := progress_signal s |})).

Definition new_Date : state Page Z :=
  mkState (fun s =>
    (clock (date_calls s),
     {| random_calls := random_calls s; date_calls := S (date_calls s);
        panel := panel s; progress_signal := progress_signal s |})).

(** [Math.floor(Math.random() * n)] *)
Definition random_below (n : Z) : state Page Z :=
  r <- Math_random ;;
  ret (Number.floor (Number.mul r #n)).

(** [Math.random() > c] *)
Definition random_above (c : double) : state Page bool :=
  r <- Math_random ;;
  ret (Number.gtb r c).

(** *** [MetroDashboard.tsx], lines 69-112 *)

Definition generateTrainset (i : nat) : state Page TrainsetStatus :=
  let trainNumber :=
    ("KMRL-" ++ padStart (String_of (Z.of_nat i + 1)) 3 "0")%string in
  let statuses :=
    [operational; standby_status; maintenance_status; critical] in
  k <- random_below (Z.of_nat (List.length statuses)) ;;
  let status := index statuses k in
  rollingStock <- random_above (decimal 1 10) ;;
  signalling <- random_above (decimal 5 100) ;;
  telecom <- random_above (decimal 8 100) ;;
  open <- random_below 5 ;;
  total <- random_below 10 ;;
  priority <- random_below 3 ;;
  exposure <- random_below 100 ;;
  current <- random_below 50000 ;;
  variance <- random_below 10000 ;;
  scheduled <- random_above (decimal 3 10) ;;
  cleaning_priority <- random_below 5 ;;
  bay_current <- random_below 8 ;;
  bay_optimal <- random_below 8 ;;
  shuntingTime <- random_below 30 ;;
  lastUpdated <- new_Date ;;
  recommended <- random_below 3 ;;
  confidence <- random_below 30 ;;
  ret {| id := ("train-" ++ String_of (Z.of_nat i + 1))%string;
         number := trainNumber;
         status := status;
         fitness := Fitness.mk rollingStock signalling telecom;
         jobCards := JobCards.mk open (total + 5);
         branding := Branding.mk (index [high; medium; low] priority) exposure 85;
         mileage := Mileage.mk (current + 10000) 45000 (variance - 5000);
         cleaning := Cleaning.mk scheduled (cleaning_priority + 1);
         stablingBay :=
           StablingBay.mk ("Bay-" ++ String_of (bay_current + 1))%string
                          ("Bay-" ++ String_of (bay_optimal + 1))%string
                          (shuntingTime + 5);
         lastUpdated := lastUpdated;
         recommendedAction := index [induct; standby; maintenance] recommended;
         confidenceScore := confidence + 70 |}.

Definition generateTrainsetData : state Page (list TrainsetStatus) :=
  Array_from 25 generateTrainset.

(** *** [OptimizationPanel.tsx], lines 46-103 *)

Definition update_panel (f : PanelState -> PanelState) : state Page unit :=
  mkState (fun s =>
    (tt, {| random_calls := random_calls s; date_calls := date_calls s;
            panel := f (panel s); progress_signal := progress_signal s |})).

Definition setIsOptimizing (b : bool) : state Page unit :=
  update_panel (fun p =>
    {| isOptimizing := b; progress := progress p; results := results p;
       metrics := metrics p; optimizationLogs := optimizationLogs p |}).

(** [setProgress(v)] stores [v] and is what the progress bar observes. *)
Definition setProgress (v : double) : state Page unit :=
  mkState (fun s =>
    (tt, {| random_calls := random_calls s; date_calls := date_calls s;
            panel :=
              {| isOptimizing := isOptimizing (panel s); progress := v;
                 results := results (panel s); metrics := metrics (panel s);
                 optimizationLogs := optimizationLogs (panel s) |};
            progress_signal := progress_signal s ++ [v] |})).

Definition setOptimizationLogs (f : list string -> list string)
  : state Page unit :=
  update_panel (fun p =>
    {| isOptimizing := isOptimizing p; progress := progress p;
       results := results p; metrics := metrics p;
       optimizationLogs := f (optimizationLogs p) |}).

Definition setResults (rs : list OptimizationResult) : state Page unit :=
  update_panel (fun p =>
    {| isOptimizing := isOptimizing p; progress := progress p; results := rs;
       metrics := metrics p; optimizationLogs := optimizationLogs p |}).

Definition setMetrics (m : OptimizationMetrics) : state Page unit :=
  update_panel (fun p =>
    {| isOptimizing := isOptimizing p; progress := progress p;
       results := results p; metrics := Some m;
       optimizationLogs := optimizationLogs p |}).

Definition logs : list string :=
  [ "Initializing multi-objective optimization engine...";
    "Loading trainset fitness certificates...";
    "Parsing Maximo job card exports...";
    "Calculating branding exposure requirements...";
    "Analyzing mileage balancing constraints...";
    "Evaluating cleaning schedule availability...";
    "Optimizing stabling bay geometry...";
    "Running constraint satisfaction algorithms...";
    "Applying machine learning predictive models...";
    "Generating ranked induction recommendations...";
    "Validation complete - Solution ready" ]%string.

(** [((i + 1) / logs.length) * 100], line 69. *)
Definition progress_value (i : nat) : double :=
  Number.mul (Number.div #(Z.of_nat i + 1) #(Z.of_nat (List.length logs))) #100.

(** One round of the simulated process, lines 67-69; the 800 ms pause
    leaves the page as it is.  [i] is below [logs.length], so [logs[i]]
    is a string. *)
Definition simulate_step (i : nat) : state Page unit :=
  setOptimizationLogs (fun prev => prev ++ [nth i logs ""%string]) ;;
  setProgress (progress_value i).

Definition all_reasoning : list string :=
  [ "All fitness certificates valid"; "Zero open job cards";
    "High branding priority met"; "Optimal mileage balance" ]%string.

Definition all_constraints : list string :=
  [ "Telecom clearance expires in 6 hours"; "Scheduled cleaning required";
    "Bay repositioning needed" ]%string.

(** The element of [mockResults] at index [i], lines 73-89. *)
Definition mockResult (i : nat) : state Page OptimizationResult :=
  a <- random_below 3 ;;
  sc <- random_below 30 ;;
  nr <- random_below 4 ;;
  nc <- random_below 3 ;;
  ts <- new_Date ;;
  ret {| trainsetId :=
           ("KMRL-" ++ padStart (String_of (Z.of_nat i + 1)) 3 "0")%string;
         action := index [induct; standby; maintenance] a;
         score := sc + 70;
         reasoning := slice0 all_reasoning (nr + 1);
         constraints := slice0 all_constraints nc;
         timestamp := ts |}.

(** [mockMetrics], lines 91-98. *)
Definition mockMetrics : state Page OptimizationMetrics :=
  sr <- random_below 20 ;;
  ce <- random_below 15 ;;
  bc <- random_below 10 ;;
  mo <- random_below 25 ;;
  se <- random_below 20 ;;
  os <- random_below 15 ;;
  ret {| serviceReadiness := sr + 80;
         costEfficiency := ce + 85;
         brandingCompliance := bc + 90;
         maintenanceOptimization := mo + 75;
         stablingEfficiency := se + 80;
         overallScore := os + 85 |}.

Definition runOptimization : state Page unit :=
  setIsOptimizing true ;;
  setProgress #0 ;;
  setOptimizationLogs (fun _ => []) ;;
  for_loop (List.length logs) simulate_step ;;
  rs <- Array_from 25 mockResult ;;
  m <- mockMetrics ;;
  setResults rs ;;
  setMetrics m ;;
  setIsOptimizing false.

(** *** What a run reads from the environment *)

(** The trainset and the result generated at index [i] after [r] calls of
    [Math.random] and [c] of [new Date]. *)
Definition trainset_at (i r c : nat) : TrainsetStatus :=
  evalState (generateTrainset i) (reads r c).

Definition result_at (i r c : nat) : OptimizationResult :=
  evalState (mockResult i) (reads r c).

Definition metrics_at (r : nat) : OptimizationMetrics :=
  evalState mockMetrics (reads r 0).

Definition fleet_from (r c : nat) : list TrainsetStatus :=
  map (fun j => trainset_at j (17 * j + r) (j + c)) (seq 0 25).

Definition results_from (r c : nat) : list OptimizationResult :=
  map (fun j => result_at j (4 * j + r) (j + c)) (seq 0 25).


(** The values handed to [setProgress] by one run. *)
Definition run_signal : list double :=
  #0 :: map progress_value (seq 0 (List.length logs)).

End Components.

(** *** The result view, lines 264-265 and 315-363 *)

(** [xs.sort(cmp)]: the sort of ECMAScript is stable, and with a
    consistent comparator its result is the stable sorted arrangement,
    which insertion from the right builds. *)
Fixpoint sort_insert {A} (cmp : A -> A -> Z) (x : A) (xs : list A) : list A :=
  match xs with
  | [] => [x]
  | y :: ys => if cmp x y <=? 0 then x :: y :: ys
               else y :: sort_insert cmp x ys
  end.

Fixpoint Array_sort {A} (cmp : A -> A -> Z) (xs : list A) : list A :=
  match xs with
  | [] => []
  | x :: xs' => sort_insert cmp x (Array_sort cmp xs')
  end.

(** [(a, b) => b.score - a.score] *)
Definition by_score_desc (a b : OptimizationResult) : Z := score b - score a.

Definition action_is (a : Action) (r : OptimizationResult) : bool :=
  match action r, a with
  | Some induct, induct | Some standby, standby
  | Some maintenance, maintenance => true
  | _, _ => false
  end.

(** The "All Trainsets" tab sorts the array held in the panel state in
    place and shows it. *)
Definition all_tab (p : PanelState) : PanelState * list OptimizationResult :=
  let sorted := Array_sort by_score_desc (results p) in
  ({| isOptimizing := isOptimizing p; progress := progress p;
      results := sorted; metrics := metrics p;
      optimizationLogs := optimizationLogs p |}, sorted).

(** The tab of one action sorts a filtered copy. *)
Definition action_tab (a : Action) (p : PanelState) : list OptimizationResult :=
  Array_sort by_score_desc (filter (action_is a) (results p)).

(** ** Scenarios and the vocabulary of the properties *)

(** The page is mounted, which generates the fleet, and the user then
    presses "Run Optimization". *)
Definition mount_and_run (random_source : nat -> draw) (clock : nat -> Z)
  : state Page (list TrainsetStatus) :=
  fleet <- generateTrainsetData random_source clock ;;
  runOptimization random_source clock ;;
  ret fleet.

(** The draws 0, 0.25, 0.5 and 0.75. *)
Definition zero_draw : draw := Draw (Dy 0 53) eq_refl.
Definition quarter_draw : draw := Draw (Dy (2 ^ 51) 53) eq_refl.
Definition half_draw : draw := Draw (Dy (2 ^ 52) 53) eq_refl.
Definition three_quarter_draw : draw := Draw (Dy (3 * 2 ^ 51) 53) eq_refl.

(** A random source that always returns 0. *)
Definition all_zero : nat -> draw := fun _ => zero_draw.

(** A random source that returns 0.25, except for its call number 3, the
    one that decides the telecom certificate of the first trainset. *)
Definition telecom_expired_source : nat -> draw :=
  fun k => if (k =? 3)%nat then zero_draw else quarter_draw.

(** A random source that returns 0 during a first run from the initial
    page and 0.25 afterwards. *)
Definition changing_source : nat -> draw :=
  fun k => if (k <? 106)%nat then zero_draw else quarter_draw.

(** A random source that gives the first trainset the certificates [f]
    and makes every drawn action [a]. *)
Definition action_draw (a : Action) : draw :=
  match a with
  | induct => zero_draw
  | standby => half_draw
  | maintenance => three_quarter_draw
  end.

Definition certificate_draw (valid : bool) : draw :=
  if valid then half_draw else zero_draw.

Definition source_for (f : Fitness.t) (a : Action) : nat -> draw :=
  fun k =>
    match k with
    | 1%nat => certificate_draw (Fitness.rollingStock f)
    | 2%nat => certificate_draw (Fitness.signalling f)
    | 3%nat => certificate_draw (Fitness.telecom f)
    | _ => action_draw a
    end.

Definition still_clock : nat -> Z := fun _ => 0.

(** A certificate is expired when its flag is false. *)
Definition any_expired (t : TrainsetStatus) : bool :=
  negb (Fitness.rollingStock (fitness t))
  || negb (Fitness.signalling (fitness t))
  || negb (Fitness.telecom (fitness t)).

(** The feasible set as the specification words it (section 4.1, default
    blocking threshold 0): an expired certificate leaves Maintenance only,
    open job cards exclude Induct, and Maintenance is always feasible. *)
Definition spec_feasible_actions (t : TrainsetStatus) : list Action :=
  if any_expired t then [maintenance]
  else if 0 <? JobCards.open (jobCards t) then [standby; maintenance]
  else [induct; standby; maintenance].

(** The action a result list gives to the trainset [n]. *)
Definition action_of (n : string) (rs : list OptimizationResult)
  : option (option Action) :=
  option_map action (find (fun r => String.eqb (trainsetId r) n) rs).

(** How many results a list holds for the trainset [n]. *)
Definition results_for (n : string) (rs : list OptimizationResult) : nat :=
  List.length (filter (fun r => String.eqb (trainsetId r) n) rs).



(** Equality of the numbers two doubles denote. *)
Definition same_number (x y : double) : bool :=
  Number.leb x y && Number.leb y x.

(** The numbers of the fleet, ["KMRL-001"] to ["KMRL-025"]. *)
Definition trainset_numbers : list string :=
  map (fun j => ("KMRL-" ++ padStart (String_of (Z.of_nat j + 1)) 3 "0")%string)
      (seq 0 25).

(** No string occurs twice. *)
Fixpoint distinct (l : list string) : bool :=
  match l with
  | [] => true
  | x :: l' => negb (existsb (String.eqb x) l') && distinct l'
  end.

(** Descending order of score. *)
Definition score_ge (a b : OptimizationResult) : Prop := score b <= score a.

(** ** The figures of the dashboard, [MetroDashboard.tsx] lines 144-151,
    212, 226 and 254 *)

(** [Math.round(x)]: the nearest integer, a half going up. *)
Definition Math_round (x : double) : Z :=
  (2 * sig x + 2 ^ scale x) / 2 ^ (scale x + 1).

(** [xs.filter(p).length] *)
Definition count {A} (p : A -> bool) (xs : list A) : Z :=
  Z.of_nat (List.length (filter p xs)).

(** [Object.values(fitness)] lists the three certificates in the order of
    the object literal. *)
Definition getFitnessScore (f : Fitness.t) : Z :=
  let scores :=
    [Fitness.rollingStock f; Fitness.signalling f; Fitness.telecom f] in
  Math_round
    (Number.mul
       (Number.div #(count (fun b : bool => b) scores)
                   #(Z.of_nat (List.length scores)))
       #100).

(** [t.status === 'critical'] and [t.recommendedAction === a]; [undefined]
    equals no string. *)
Definition is_critical (t : TrainsetStatus) : bool :=
  match status t with
  | Some critical => true
  | _ => false
  end.

Definition recommended_is (a : Action) (t : TrainsetStatus) : bool :=
  match recommendedAction t, a with
  | Some induct, induct | Some standby, standby
  | Some maintenance, maintenance => true
  | _, _ => false
  end.

Definition criticalAlerts (trainsets : list TrainsetStatus) : Z :=
  count is_critical trainsets.

Definition readyForService (trainsets : list TrainsetStatus) : Z :=
  count (recommended_is induct) trainsets.

Definition maintenanceRequired (trainsets : list TrainsetStatus) : Z :=
  count (recommended_is maintenance) trainsets.

(** The "On Standby" card, line 226. *)
Definition onStandby (trainsets : list TrainsetStatus) : Z :=
  count (recommended_is standby) trainsets.

(** [Math.round((readyForService / trainsets.length) * 100)], line 212.
    With no trainset the quotient is [0 / 0], which is [NaN], and so is
    the figure: [None]. *)
Definition readyPercent (trainsets : list TrainsetStatus) : option Z :=
  if Z.of_nat (List.length trainsets) =? 0 then None
  else Some (Math_round
               (Number.mul
                  (Number.div #(readyForService trainsets)
                              #(Z.of_nat (List.length trainsets)))
                  #100)).

(** [Math.round(((trainsets.length - criticalAlerts) / trainsets.length)
    * 100)], line 254; [NaN] with no trainset. *)
Definition fleetAvailability (trainsets : list TrainsetStatus) : option Z :=
  if Z.of_nat (List.length trainsets) =? 0 then None
  else Some (Math_round
               (Number.mul
                  (Number.div
                     #(Z.of_nat (List.length trainsets)
                       - criticalAlerts trainsets)
                     #(Z.of_nat (List.length trainsets)))
                  #100)).

(** The identifiers ["train-1"] to ["train-25"] and the bays ["Bay-1"] to
    ["Bay-8"]. *)
Definition trainset_ids : list string :=
  map (fun j => ("train-" ++ String_of (Z.of_nat j + 1))%string) (seq 0 25).

Definition bay_names : list string :=
  map (fun k => ("Bay-" ++ String_of (Z.of_nat k + 1))%string) (seq 0 8).

(** ** What the panel shows, [OptimizationPanel.tsx] lines 144, 167, 179
    and 256-258 *)

(** The count in the title of the tab of one action. *)
Definition tab_count (a : Action) (p : PanelState) : Z :=
  count (action_is a) (results p).

(** [isOptimizing &&]: the progress bar and the log. *)
Definition shows_progress (p : PanelState) : bool := isOptimizing p.

(** [!isOptimizing && results.length === 0]: the invitation to run. *)
Definition shows_placeholder (p : PanelState) : bool :=
  negb (isOptimizing p) && (Z.of_nat (List.length (results p)) =? 0).

(** [metrics && results.length > 0]: the metrics and the tabs. *)
Definition shows_results (p : PanelState) : bool :=
  match metrics p with
  | Some _ => 0 <? Z.of_nat (List.length (results p))
  | None => false
  end.

(** The first [k] rounds of the simulated process, lines 66-70. *)
Definition simulate_rounds (k : nat) : state Page unit :=
  for_loop_at simulate_step 0 k.

(** ** The number model on known values *)

(** The literals [0.1], [0.08] and [0.3] are the doubles
    [3602879701896397 / 2 ^ 55], [5764607523034235 / 2 ^ 56] and
    [5404319552844595 / 2 ^ 54]. *)
Example decimal_literals :
  same_number (decimal 1 10) (Dy 3602879701896397 55) = true
  /\ same_number (decimal 8 100) (Dy 5764607523034235 56) = true
  /\ same_number (decimal 3 10) (Dy 5404319552844595 54) = true.
Proof. vm_compute. repeat split. Qed.

(** [(1 / 3) * 3] rounds up to 1, and [(1 / 11) * 100] is
    9.090909090909092, the double [5117726849284655 / 2 ^ 49]. *)
Example rounded_products :
  Number.floor (Number.mul (Number.div #1 #3) #3) = 1
  /\ same_number (progress_value 0) (Dy 5117726849284655 49) = true
  /\ Number.floor (progress_value 10) = 100.
Proof. vm_compute. repeat split. Qed.

(** ** Rounding and the range of [Math.floor(Math.random() * n)] *)

Lemma rne_nonneg p s b : 0 <= p -> 0 <= rne p s b.
Proof.
  intros Hp. unfold rne.
  assert (0 <= p / 2 ^ s) by (apply Z_div_nonneg_nonneg; [lia | apply Z.pow_nonneg; lia]).
  repeat match goal with |- context [if ?c then _ else _] => destruct c end; lia.
Qed.

(** Rounding to nearest never moves up by more than half a unit. *)
Lemma rne_upper p s b :
  0 <= p -> 1 <= s -> 2 * (rne p s b * 2 ^ s) <= 2 * p + 2 ^ s.
Proof.
  intros Hp Hs.
  assert (Hpow : 2 ^ s = 2 * 2 ^ (s - 1)).
  { rewrite <- Z.pow_succ_r by lia. f_equal. lia. }
  assert (Hh : 0 < 2 ^ (s - 1)) by (apply Z.pow_pos_nonneg; lia).
  pose proof (Z_div_mod_eq_full p (2 ^ s)) as Hdm.
  pose proof (Z.mod_pos_bound p (2 ^ s) ltac:(lia)) as Hr.
  unfold rne.
  set (q := p / 2 ^ s) in *. set (r := p mod 2 ^ s) in *.
  set (h := 2 ^ (s - 1)) in *.
  destruct (Z.ltb_spec r h); [nia |].
  destruct (Z.ltb_spec h r); [nia |].
  assert (r = h) by lia.
  destruct b; [nia |]. destruct (Z.even q); nia.
Qed.

Lemma unit_interval_bounds (d : draw) :
  0 <= sig (value d) < 2 ^ 53 /\ 53 <= scale (value d) <= 1074.
Proof.
  pose proof (in_unit d) as H. unfold unit_interval in H.
  repeat (apply andb_prop in H; destruct H as [H ?]). lia.
Qed.

(** [Math.floor(r * n)] is one of [0 .. n - 1] for every [r] that
    [Math.random] can return and every positive integer [n] below [2 ^ 53]:
    rounding the product never reaches [n]. *)
Lemma floor_random_mul (d : draw) (n : Z) :
  1 <= n < 2 ^ 53 -> 0 <= Number.floor (Number.mul (value d) #n) < n.
Proof.
  intros Hn. destruct (unit_interval_bounds d) as [Hm He].
  unfold Number.mul, Number.floor, round53, of_int. cbn [sig scale].
  set (m := sig (value d)) in *. set (e := scale (value d)) in *.
  rewrite Z.add_0_r.
  set (p := m * n).
  assert (Hp : 0 <= p) by (unfold p; nia).
  assert (He53 : 2 ^ 53 <= 2 ^ e) by (apply Z.pow_le_mono_r; lia).
  assert (Hpe : p + n <= n * 2 ^ e) by (unfold p; nia).
  assert (H2e : 0 < 2 ^ e) by (apply Z.pow_pos_nonneg; lia).
  set (s := Z.max (Z.log2 p - 52) (e - 1074)).
  destruct (Z.leb_spec s 0) as [Hs | Hs]; cbn [sig scale].
  - split; [apply Z.div_pos; lia |].
    apply Z.div_lt_upper_bound; nia.
  - assert (Hs' : s = Z.log2 p - 52) by lia.
    assert (Hp0 : 0 < p).
    { destruct (Z.eq_dec p 0) as [E | E]; [| lia].
      rewrite E in Hs'. cbn in Hs'. lia. }
    pose proof (Z.log2_spec p Hp0) as [Hlo _].
    assert (Hp106 : p < 2 ^ 53 * n) by (unfold p; nia).
    assert (Hsn : 2 ^ (s - 1) < n).
    { assert (Hsplit : 2 ^ Z.log2 p = 2 ^ 53 * 2 ^ (s - 1)).
      { rewrite <- Z.pow_add_r by lia. f_equal. lia. }
      nia. }
    assert (Hs53 : s <= 53).
    { destruct (Z.le_gt_cases s 53) as [|Hgt]; [assumption | exfalso].
      assert (2 ^ 53 <= 2 ^ (s - 1)) by (apply Z.pow_le_mono_r; lia). lia. }
    destruct (Z.leb_spec s e) as [Hse | Hse]; [| lia]. cbn [sig scale].
    pose proof (rne_upper p s false Hp ltac:(lia)) as Hup.
    pose proof (rne_nonneg p s false Hp) as Hq0.
    assert (Hpow : 2 ^ s = 2 * 2 ^ (s - 1)).
    { rewrite <- Z.pow_succ_r by lia. f_equal. lia. }
    assert (Hes : 2 ^ e = 2 ^ (e - s) * 2 ^ s).
    { rewrite <- Z.pow_add_r by lia. f_equal. lia. }
    assert (H2s : 0 < 2 ^ s) by (apply Z.pow_pos_nonneg; lia).
    assert (H2es : 0 < 2 ^ (e - s)) by (apply Z.pow_pos_nonneg; lia).
    split; [apply Z.div_pos; lia |].
    apply Z.div_lt_upper_bound; [lia |].
    set (q := rne p s false) in *.
    assert (q * 2 ^ s < n * 2 ^ (e - s) * 2 ^ s) by nia.
    nia.
Qed.

Lemma advance_advance r c r' c' s :
  advance r c (advance r' c' s) = advance (r + r') (c + c') s.
Proof.
  unfold advance; cbn. f_equal; lia.
Qed.

Lemma advance_0 s : advance 0 0 s = s.
Proof. destruct s; reflexivity. Qed.

(** An array built by [Array.from] from a generator that makes [a] calls of
    [Math.random] and [b] of [new Date] per element, and touches nothing
    else, holds at index [j] the element generated after [a * j] and
    [b * j] earlier calls. *)
Lemma Array_from_at_run {A} (f : nat -> state Page A)
      (g : nat -> nat -> nat -> A) (a b : nat) :
  (forall i s, runState (f i) s
               = (g i (random_calls s) (date_calls s), advance a b s)) ->
  forall n i s,
    runState (Array_from_at f i n) s
    = (map (fun j => g (i + j)%nat (a * j + random_calls s)%nat
                       (b * j + date_calls s)%nat) (seq 0 n),
       advance (a * n) (b * n) s).
Proof.
  intros Hf. induction n as [| n IH]; intros i s.
  - cbn. rewrite !Nat.mul_0_r, advance_0. reflexivity.
  - cbn [Array_from_at]. cbn [bind ret Monad_state runState].
    rewrite Hf. rewrite IH. cbn [fst snd seq map].
    rewrite advance_advance. f_equal.
    + replace (i + 0)%nat with i by lia.
      rewrite !Nat.mul_0_r. cbn [Nat.add]. apply f_equal.
      rewrite <- seq_shift, map_map. apply map_ext. intros j.
      cbn [advance random_calls date_calls]. f_equal; lia.
    + f_equal; lia.
Qed.

(** ** What one run reads from the environment *)

Section Runs.

Variable random_source : nat -> draw.
Variable clock : nat -> Z.

Lemma generateTrainset_run i s :
  runState (generateTrainset random_source clock i) s
  = (trainset_at random_source clock i (random_calls s) (date_calls s), advance 17 1 s).
Proof. reflexivity. Qed.

Lemma mockResult_run i s :
  runState (mockResult random_source clock i) s
  = (result_at random_source clock i (random_calls s) (date_calls s), advance 4 1 s).
Proof. reflexivity. Qed.

Lemma mockMetrics_run s :
  runState (mockMetrics random_source) s
  = (metrics_at random_source (random_calls s), advance 6 0 s).
Proof. destruct s; reflexivity. Qed.

Lemma generateTrainsetData_run s :
  runState (generateTrainsetData random_source clock) s
  = (fleet_from random_source clock (random_calls s) (date_calls s), advance 425 25 s).
Proof.
  unfold generateTrainsetData, Array_from.
  rewrite (Array_from_at_run _ (trainset_at random_source clock) 17 1 generateTrainset_run).
  unfold fleet_from. apply f_equal2; [| reflexivity].
  apply map_ext. intros j. f_equal; lia.
Qed.

Lemma last_cons {A} (a d : A) l : last (a :: l) d = last l a.
Proof.
  revert a d. induction l as [| b l IH]; intros a d; [reflexivity |].
  change (last (a :: b :: l) d) with (last (b :: l) d).
  rewrite !IH. reflexivity.
Qed.

(** The simulated process only appends to the log and to the progress
    signal. *)
Lemma simulate_loop_run n : forall i s,
  runState (for_loop_at simulate_step i n) s
  = (tt,
     {| random_calls := random_calls s; date_calls := date_calls s;
        panel :=
          {| isOptimizing := isOptimizing (panel s);
             progress := last (map progress_value (seq i n)) (progress (panel s));
             results := results (panel s); metrics := metrics (panel s);
             optimizationLogs :=
               optimizationLogs (panel s)
               ++ map (fun j => nth j logs ""%string) (seq i n) |};
        progress_signal := progress_signal s ++ map progress_value (seq i n) |}).
Proof.
  induction n as [| n IH]; intros i s.
  - cbn. rewrite !app_nil_r. destruct s as [r c [] sg]; reflexivity.
  - cbn [for_loop_at]. cbn [bind ret Monad_state runState].
    unfold simulate_step at 1.
    cbn [bind ret Monad_state runState setOptimizationLogs setProgress
         update_panel].
    rewrite IH. cbn [seq map]. rewrite last_cons.
    cbn -[progress_value nth last]. rewrite <- !app_assoc. reflexivity.
Qed.

(** One run of [runOptimization] from the page [s]: 106 calls of
    [Math.random], 25 of [new Date], and the panel it leaves. *)
Lemma runOptimization_run s :
  runState (runOptimization random_source clock) s
  = (tt,
     {| random_calls := 106 + random_calls s;
        date_calls := 25 + date_calls s;
        panel :=
          {| isOptimizing := false;
             progress := progress_value 10;
             results := results_from random_source clock (random_calls s) (date_calls s);
             metrics := Some (metrics_at random_source (100 + random_calls s));
             optimizationLogs := logs |};
        progress_signal := progress_signal s ++ run_signal |}).
Proof.
  unfold runOptimization, for_loop, Array_from.
  cbn [bind ret Monad_state runState].
  cbn [setIsOptimizing setProgress setOptimizationLogs update_panel runState
       fst snd].
  rewrite simulate_loop_run. cbn [snd].
  rewrite (Array_from_at_run _ (result_at random_source clock) 4 1 mockResult_run).
  cbn [fst snd]. rewrite mockMetrics_run. cbn [fst snd].
  cbn [setResults setMetrics setIsOptimizing update_panel runState fst snd
       advance panel random_calls date_calls progress_signal
       isOptimizing progress results metrics optimizationLogs].
  rewrite <- app_assoc.
  apply f_equal. 
  f_equal.
Qed.

End Runs.

(** ** The generated fleet *)

Section Fleet.

Variable random_source : nat -> draw.
Variable clock : nat -> Z.

Lemma in_fleet_from r c t :
  In t (fleet_from random_source clock r c) ->
  exists j, (j < 25)%nat
            /\ t = trainset_at random_source clock j (17 * j + r) (j + c).
Proof.
  unfold fleet_from. intros H. apply in_map_iff in H.
  destruct H as (j & <- & Hj). apply in_seq in Hj. exists j. split; [lia | reflexivity].
Qed.

Lemma in_results_from r c x :
  In x (results_from random_source clock r c) ->
  exists j, (j < 25)%nat
            /\ x = result_at random_source clock j (4 * j + r) (j + c).
Proof.
  unfold results_from. intros H. apply in_map_iff in H.
  destruct H as (j & <- & Hj). apply in_seq in Hj. exists j. split; [lia | reflexivity].
Qed.

Lemma trainset_at_jobCards i r c :
  jobCards (trainset_at random_source clock i r c)
  = JobCards.mk
      (Number.floor (Number.mul (value (random_source (4 + r)%nat)) #5))
      (Number.floor (Number.mul (value (random_source (5 + r)%nat)) #10) + 5).
Proof. reflexivity. Qed.

Lemma trainset_at_mileage i r c :
  mileage (trainset_at random_source clock i r c)
  = Mileage.mk
      (Number.floor (Number.mul (value (random_source (8 + r)%nat)) #50000)
       + 10000)
      45000
      (Number.floor (Number.mul (value (random_source (9 + r)%nat)) #10000)
       - 5000).
Proof. reflexivity. Qed.

Lemma trainset_at_confidenceScore i r c :
  confidenceScore (trainset_at random_source clock i r c)
  = Number.floor (Number.mul (value (random_source (16 + r)%nat)) #30) + 70.
Proof. reflexivity. Qed.

Lemma result_at_score i r c :
  score (result_at random_source clock i r c)
  = Number.floor (Number.mul (value (random_source (1 + r)%nat)) #30) + 70.
Proof. reflexivity. Qed.

Lemma result_at_action i r c :
  action (result_at random_source clock i r c)
  = index [induct; standby; maintenance]
          (Number.floor (Number.mul (value (random_source r)) #3)).
Proof. reflexivity. Qed.

(** The fleet a call of [generateTrainsetData] returns. *)
Lemma generated_fleet s :
  evalState (generateTrainsetData random_source clock) s
  = fleet_from random_source clock (random_calls s) (date_calls s).
Proof.
  unfold evalState. rewrite generateTrainsetData_run. reflexivity.
Qed.

(** The results a run of [runOptimization] leaves in the panel. *)
Lemma run_results s :
  results (panel (execState (runOptimization random_source clock) s))
  = results_from random_source clock (random_calls s) (date_calls s).
Proof.
  unfold execState. rewrite runOptimization_run. reflexivity.
Qed.

Lemma run_metrics s :
  metrics (panel (execState (runOptimization random_source clock) s))
  = Some (metrics_at random_source (100 + random_calls s)).
Proof.
  unfold execState. rewrite runOptimization_run. reflexivity.
Qed.

(** C9: for every trainset snapshot the generator returns, the job-card
    counts satisfy [0 <= open <= total]: [open] is one of 0..4 and
    [total] one of 5..14. *)
Theorem C9_open_job_cards_within_total s :
  Forall (fun t => 0 <= JobCards.open (jobCards t)
                     <= JobCards.total (jobCards t))
         (evalState (generateTrainsetData random_source clock) s).
Proof.
  rewrite generated_fleet. apply Forall_forall. intros t H.
  apply in_fleet_from in H. destruct H as (j & _ & ->).
  rewrite trainset_at_jobCards. cbn [JobCards.open JobCards.total].
  match goal with
  | |- 0 <= Number.floor (Number.mul (value ?a) _)
       <= Number.floor (Number.mul (value ?b) _) + 5 =>
      pose proof (floor_random_mul a 5 ltac:(lia));
      pose proof (floor_random_mul b 10 ltac:(lia))
  end.
  lia.
Qed.

(** C10: every result of every run has a score in [[70, 99]], whatever its
    action, and every generated trainset has a confidence score in
    [[70, 99]]. *)
Theorem C10_scores_between_70_and_99 s s' :
  Forall (fun r => 70 <= score r <= 99)
         (results (panel (execState (runOptimization random_source clock) s)))
  /\ Forall (fun t => 70 <= confidenceScore t <= 99)
            (evalState (generateTrainsetData random_source clock) s').
Proof.
  split.
  - rewrite run_results. apply Forall_forall. intros r H.
    apply in_results_from in H. destruct H as (j & _ & ->).
    rewrite result_at_score.
    match goal with
    | |- _ <= Number.floor (Number.mul (value ?a) _) + _ <= _ =>
        pose proof (floor_random_mul a 30 ltac:(lia))
    end.
    lia.
  - rewrite generated_fleet. apply Forall_forall. intros t H.
    apply in_fleet_from in H. destruct H as (j & _ & ->).
    rewrite trainset_at_confidenceScore.
    match goal with
    | |- _ <= Number.floor (Number.mul (value ?a) _) + _ <= _ =>
        pose proof (floor_random_mul a 30 ltac:(lia))
    end.
    lia.
Qed.

(** C6, as the code has it: the variance of a generated trainset is read
    from a draw of its own.  For the trainset of index [j] it is
    [floor(r * 10000) - 5000] with [r] the tenth number the trainset
    takes from [Math.random], while the current mileage is
    [floor(r' * 50000) + 10000] with [r'] the ninth and the target is the
    constant 45000; so the variance is an integer of [[-5000, 4999]], the
    current mileage one of [[10000, 59999]], and the variance is computed
    from neither the current mileage nor the target. *)
Theorem C6_variance_drawn_on_its_own s :
  let fleet := evalState (generateTrainsetData random_source clock) s in
  map mileage fleet
  = map (fun j =>
           Mileage.mk
             (Number.floor
                (Number.mul
                   (value (random_source (17 * j + 8 + random_calls s)%nat))
                   #50000)
              + 10000)
             45000
             (Number.floor
                (Number.mul
                   (value (random_source (17 * j + 9 + random_calls s)%nat))
                   #10000)
              - 5000))
        (seq 0 25)
  /\ Forall (fun t => -5000 <= Mileage.variance (mileage t) <= 4999
                      /\ 10000 <= Mileage.current (mileage t) <= 59999
                      /\ Mileage.target (mileage t) = 45000)
            fleet.
Proof.
  cbv zeta. rewrite generated_fleet. split.
  - unfold fleet_from. rewrite map_map. apply map_ext. intros j.
    rewrite trainset_at_mileage.
    replace (8 + (17 * j + random_calls s))%nat
      with (17 * j + 8 + random_calls s)%nat by lia.
    replace (9 + (17 * j + random_calls s))%nat
      with (17 * j + 9 + random_calls s)%nat by lia.
    reflexivity.
  - apply Forall_forall. intros t H.
    apply in_fleet_from in H. destruct H as (j & _ & ->).
    rewrite trainset_at_mileage.
    cbn [Mileage.variance Mileage.current Mileage.target].
    match goal with
    | |- _ <= Number.floor (Number.mul (value ?a) _) - _ <= _
         /\ _ <= Number.floor (Number.mul (value ?b) _) + _ <= _ /\ _ =>
        pose proof (floor_random_mul a 10000 ltac:(lia));
        pose proof (floor_random_mul b 50000 ltac:(lia))
    end.
    lia.
Qed.

End Fleet.

(** C6, as stated, fails: with a random source that always returns 0 the
    first trainset has current mileage 10000, target 45000 and variance
    -5000, not 10000 - 45000. *)
Lemma C6_variance_is_not_current_minus_target :
  exists t,
    In t (evalState (generateTrainsetData all_zero still_clock) initial_page)
    /\ Mileage.current (mileage t) = 10000
    /\ Mileage.target (mileage t) = 45000
    /\ Mileage.variance (mileage t) = -5000
    /\ Mileage.variance (mileage t)
       <> Mileage.current (mileage t) - Mileage.target (mileage t).
Proof.
  exists (trainset_at all_zero still_clock 0 0 0).
  split; [vm_compute; left; reflexivity |].
  vm_compute. repeat split; discriminate.
Qed.

(** ** The progress signal *)

(** C7: the values handed to [setProgress] during a run are appended to
    the signal in increasing order, each lies between 0 and 100, and the
    last one, which the panel keeps, is 100. *)
Theorem C7_progress_signal_monotone random_source clock s :
  let s' := execState (runOptimization random_source clock) s in
  progress_signal s' = progress_signal s ++ run_signal
  /\ StronglySorted (fun x y => Number.leb x y = true) run_signal
  /\ Forall (fun v => Number.leb #0 v = true /\ Number.leb v #100 = true)
            run_signal
  /\ same_number (last run_signal #0) #100 = true
  /\ progress (panel s') = last run_signal #0.
Proof.
  cbv zeta. unfold execState. rewrite runOptimization_run. cbn [snd progress_signal panel progress].
  split; [reflexivity |].
  split; [| split; [| split; [vm_compute; reflexivity | reflexivity]]].
  - unfold run_signal. cbn [logs List.length seq map].
    repeat (apply SSorted_cons; [| repeat (apply Forall_cons; [vm_compute; reflexivity |]); apply Forall_nil]).
    apply SSorted_nil.
  - unfold run_signal. cbn [logs List.length seq map].
    repeat (apply Forall_cons; [split; vm_compute; reflexivity |]).
    apply Forall_nil.
Qed.

(** ** The sorted view *)

Section Sort.

Context {A : Type} (cmp : A -> A -> Z).

Lemma sort_insert_perm x l : Permutation (x :: l) (sort_insert cmp x l).
Proof.
  induction l as [| y l IH]; cbn [sort_insert]; [reflexivity |].
  destruct (cmp x y <=? 0); [reflexivity |].
  rewrite perm_swap. apply perm_skip, IH.
Qed.

Lemma Array_sort_perm l : Permutation l (Array_sort cmp l).
Proof.
  induction l as [| x l IH]; cbn [Array_sort]; [constructor |].
  rewrite <- sort_insert_perm. apply perm_skip, IH.
Qed.

(** The sort is stable: the elements that satisfy a predicate [p] keep
    their order whenever the comparator puts an element that satisfies
    [p] before one that does not only if it is smaller. *)
Lemma sort_insert_filter (p : A -> bool) x l :
  (forall y, p x = true -> p y = true -> cmp x y <= 0) ->
  filter p (sort_insert cmp x l) = filter p (x :: l).
Proof.
  intros Hp. induction l as [| y l IH]; cbn [sort_insert]; [reflexivity |].
  destruct (Z.leb_spec (cmp x y) 0) as [Hc | Hc]; [reflexivity |].
  cbn [filter] in *. rewrite IH.
  destruct (p x) eqn:Hx, (p y) eqn:Hy; try reflexivity.
  specialize (Hp y eq_refl Hy). lia.
Qed.

End Sort.

Lemma sort_insert_by_score x l :
  StronglySorted score_ge l ->
  StronglySorted score_ge (sort_insert by_score_desc x l).
Proof.
  induction 1 as [| y l Hs IH Hy]; cbn [sort_insert].
  - repeat constructor.
  - unfold by_score_desc at 1.
    destruct (Z.leb_spec (score y - score x) 0) as [Hc | Hc].
    + constructor; [constructor; assumption |].
      constructor; [unfold score_ge; lia |].
      eapply Forall_impl; [| exact Hy]. unfold score_ge. intros; lia.
    + constructor; [exact IH |].
      eapply Permutation_Forall; [apply sort_insert_perm |].
      constructor; [unfold score_ge; lia | exact Hy].
Qed.

Lemma Array_sort_by_score l :
  StronglySorted score_ge (Array_sort by_score_desc l).
Proof.
  induction l as [| x l IH]; cbn [Array_sort]; [constructor |].
  apply sort_insert_by_score, IH.
Qed.

(** Results of equal score keep the order they had. *)
Lemma Array_sort_stable k l :
  filter (fun r => score r =? k) (Array_sort by_score_desc l)
  = filter (fun r => score r =? k) l.
Proof.
  induction l as [| x l IH]; cbn [Array_sort]; [reflexivity |].
  rewrite sort_insert_filter.
  - cbn [filter]. rewrite IH. reflexivity.
  - intros y Hx Hy. apply Z.eqb_eq in Hx, Hy. unfold by_score_desc. lia.
Qed.

(** Looking a trainset up finds the same result in any arrangement of a
    list that holds no trainset twice. *)
Lemma find_permutation n (l l' : list OptimizationResult) :
  Permutation l l' ->
  NoDup (map trainsetId l) ->
  find (fun r => String.eqb (trainsetId r) n) l
  = find (fun r => String.eqb (trainsetId r) n) l'.
Proof.
  induction 1 as [| x l l' Hp IH | x y l | l l' l'' Hp1 IH1 Hp2 IH2];
    intros Hnd.
  - reflexivity.
  - cbn [find]. inversion Hnd; subst. rewrite IH by assumption. reflexivity.
  - cbn [find].
    destruct (String.eqb_spec (trainsetId y) n) as [Hy | Hy];
      destruct (String.eqb_spec (trainsetId x) n) as [Hx | Hx];
      try reflexivity.
    exfalso. cbn [map] in Hnd. inversion Hnd as [| ? ? Hin _]; subst.
    apply Hin. left. congruence.
  - rewrite IH1 by assumption. apply IH2.
    eapply Permutation_NoDup; [| exact Hnd]. apply Permutation_map, Hp1.
Qed.

Lemma distinct_NoDup l : distinct l = true -> NoDup l.
Proof.
  induction l as [| x l IH]; cbn [distinct]; intros H; constructor;
    apply andb_prop in H; destruct H as [Hx Hl].
  - intros Hin. apply negb_true_iff in Hx.
    assert (existsb (String.eqb x) l = true) as E; [| congruence].
    apply existsb_exists. exists x. split; [assumption | apply String.eqb_refl].
  - apply IH, Hl.
Qed.

Lemma fleet_numbers random_source clock r c :
  map number (fleet_from random_source clock r c) = trainset_numbers.
Proof.
  unfold fleet_from, trainset_numbers. rewrite map_map. reflexivity.
Qed.

Lemma result_numbers random_source clock r c :
  map trainsetId (results_from random_source clock r c) = trainset_numbers.
Proof.
  unfold results_from, trainset_numbers. rewrite map_map. reflexivity.
Qed.

Lemma trainset_numbers_NoDup : NoDup trainset_numbers.
Proof. apply distinct_NoDup. vm_compute. reflexivity. Qed.

(** C8: the "All Trainsets" tab shows the results of the run in descending
    order of score; what it shows is a rearrangement of the run's results,
    which it also leaves in the panel, and every trainset keeps the action
    the run gave it. *)
Theorem C8_view_sorted_by_score_desc random_source clock s :
  let p := panel (execState (runOptimization random_source clock) s) in
  let shown := snd (all_tab p) in
  StronglySorted score_ge shown
  /\ Permutation (results p) shown
  /\ results (fst (all_tab p)) = shown
  /\ forall n, action_of n shown = action_of n (results p).
Proof.
  cbv zeta. unfold all_tab. cbn [fst snd results].
  split; [apply Array_sort_by_score |].
  split; [apply Array_sort_perm |].
  split; [reflexivity |].
  intros n. unfold action_of. f_equal. symmetry.
  apply find_permutation; [apply Array_sort_perm |].
  rewrite run_results, result_numbers. apply trainset_numbers_NoDup.
Qed.

(** ** Which trainsets a run covers *)

Lemma results_for_numbers n rs :
  results_for n rs
  = List.length (filter (fun m => String.eqb m n) (map trainsetId rs)).
Proof.
  unfold results_for. induction rs as [| r rs IH]; [reflexivity |].
  cbn [filter map]. destruct (String.eqb (trainsetId r) n); cbn [List.length];
    rewrite IH; reflexivity.
Qed.

Lemma once_in_trainset_numbers n :
  In n trainset_numbers ->
  List.length (filter (fun m => String.eqb m n) trainset_numbers) = 1%nat.
Proof.
  intros H. vm_compute in H.
  repeat (destruct H as [<- | H]; [vm_compute; reflexivity |]).
  contradiction.
Qed.

Lemma index_action_defined k :
  0 <= k < 3 -> exists a, index [induct; standby; maintenance] k = Some a.
Proof.
  intros H. assert (k = 0 \/ k = 1 \/ k = 2) as [-> | [-> | ->]] by lia;
    eexists; reflexivity.
Qed.

(** C5, as the code has it: each of the 25 generated trainsets has exactly
    one result in the result set of a run, every result belongs to a
    trainset of the fleet, and every result carries one of the three
    actions. *)
Theorem C5_each_trainset_exactly_once
        fleet_source fleet_clock s random_source clock s' :
  let fleet := evalState (generateTrainsetData fleet_source fleet_clock) s in
  let rs :=
    results (panel (execState (runOptimization random_source clock) s')) in
  List.length fleet = 25%nat
  /\ List.length rs = 25%nat
  /\ Forall (fun t => results_for (number t) rs = 1%nat) fleet
  /\ Forall (fun r => In (trainsetId r) (map number fleet)) rs
  /\ Forall (fun r => exists a, action r = Some a) rs.
Proof.
  cbv zeta. rewrite generated_fleet, run_results.
  split; [reflexivity |]. split; [reflexivity |].
  split; [| split].
  - apply Forall_forall. intros t Ht.
    rewrite results_for_numbers, result_numbers.
    apply once_in_trainset_numbers.
    rewrite <- (fleet_numbers fleet_source fleet_clock
                              (random_calls s) (date_calls s)).
    apply in_map, Ht.
  - apply Forall_forall. intros r Hr.
    rewrite fleet_numbers.
    rewrite <- (result_numbers random_source clock
                               (random_calls s') (date_calls s')).
    apply in_map, Hr.
  - apply Forall_forall. intros r Hr.
    apply in_results_from in Hr. destruct Hr as (j & _ & ->).
    rewrite result_at_action. apply index_action_defined.
    apply floor_random_mul. lia.
Qed.

(** C5, as stated, fails on its last part: when only the draw that decides
    the telecom certificate of the first trainset is below 0.08, the
    feasible set of that trainset is Maintenance alone and the run assigns
    it Induct. *)
Lemma C5_action_outside_feasible_set :
  exists t r,
    In t (fst (runState (mount_and_run telecom_expired_source still_clock)
                        initial_page))
    /\ In r (results (panel (snd
              (runState (mount_and_run telecom_expired_source still_clock)
                        initial_page))))
    /\ trainsetId r = number t
    /\ spec_feasible_actions t = [maintenance]
    /\ action r = Some induct
    /\ ~ In induct (spec_feasible_actions t).
Proof.
  exists (trainset_at telecom_expired_source still_clock 0 0 0),
         (result_at telecom_expired_source still_clock 0 425 25).
  split; [vm_compute; left; reflexivity |].
  split; [vm_compute; left; reflexivity |].
  vm_compute. repeat split.
  intros [H | []]. discriminate H.
Qed.

(** ** Actions and certificates *)

(** C1, as stated, fails: when only the draw that decides the telecom
    certificate of the first trainset is below 0.08, that trainset has an
    expired telecom certificate, and both the run and the generator give
    it Induct, not Maintenance. *)
Lemma C1_expired_trainset_inducted :
  exists t r,
    In t (fst (runState (mount_and_run telecom_expired_source still_clock)
                        initial_page))
    /\ In r (results (panel (snd
              (runState (mount_and_run telecom_expired_source still_clock)
                        initial_page))))
    /\ trainsetId r = number t
    /\ fitness t = Fitness.mk true true false
    /\ any_expired t = true
    /\ action r = Some induct
    /\ action r <> Some maintenance
    /\ recommendedAction t = Some induct.
Proof.
  exists (trainset_at telecom_expired_source still_clock 0 0 0),
         (result_at telecom_expired_source still_clock 0 425 25).
  split; [vm_compute; left; reflexivity |].
  split; [vm_compute; left; reflexivity |].
  vm_compute. repeat split. discriminate.
Qed.

(** C1, as the code has it: the action is drawn without regard to the
    certificates.  For every state of the three certificates and each of
    the three actions there are a random source and a run in which a
    trainset with these certificates is given that action, by the run and
    by the generator alike. *)
Theorem C1_action_drawn_whatever_the_certificates
        (f : Fitness.t) (a : Action) :
  exists random_source t r,
    In t (fst (runState (mount_and_run random_source still_clock)
                        initial_page))
    /\ In r (results (panel (snd
              (runState (mount_and_run random_source still_clock)
                        initial_page))))
    /\ trainsetId r = number t
    /\ fitness t = f
    /\ action r = Some a
    /\ recommendedAction t = Some a.
Proof.
  exists (source_for f a),
         (trainset_at (source_for f a) still_clock 0 0 0),
         (result_at (source_for f a) still_clock 0 425 25).
  destruct f as [[] [] []], a;
    (split; [vm_compute; left; reflexivity |]);
    (split; [vm_compute; left; reflexivity |]);
    vm_compute; repeat split.
Qed.

(** ** What a run depends on *)

Lemma result_at_reads random_source clock i r c :
  result_at random_source clock i r c
  = {| trainsetId :=
         ("KMRL-" ++ padStart (String_of (Z.of_nat i + 1)) 3 "0")%string;
       action :=
         index [induct; standby; maintenance]
               (Number.floor (Number.mul (value (random_source (0 + r)%nat)) #3));
       score :=
         Number.floor (Number.mul (value (random_source (1 + r)%nat)) #30) + 70;
       reasoning :=
         slice0 all_reasoning
           (Number.floor (Number.mul (value (random_source (2 + r)%nat)) #4) + 1);
       constraints :=
         slice0 all_constraints
           (Number.floor (Number.mul (value (random_source (3 + r)%nat)) #3));
       timestamp := clock c |}.
Proof. reflexivity. Qed.

Lemma metrics_at_reads random_source r :
  metrics_at random_source r
  = {| serviceReadiness :=
         Number.floor (Number.mul (value (random_source (0 + r)%nat)) #20) + 80;
       costEfficiency :=
         Number.floor (Number.mul (value (random_source (1 + r)%nat)) #15) + 85;
       brandingCompliance :=
         Number.floor (Number.mul (value (random_source (2 + r)%nat)) #10) + 90;
       maintenanceOptimization :=
         Number.floor (Number.mul (value (random_source (3 + r)%nat)) #25) + 75;
       stablingEfficiency :=
         Number.floor (Number.mul (value (random_source (4 + r)%nat)) #20) + 80;
       overallScore :=
         Number.floor (Number.mul (value (random_source (5 + r)%nat)) #15) + 85 |}.
Proof. reflexivity. Qed.

(** Writes the number of a call as an offset from the calls made before
    the run. *)
Ltac shift_reads s :=
  repeat match goal with
  | |- context [(?k + (?m + random_calls s))%nat] =>
      replace (k + (m + random_calls s))%nat
        with (m + k + random_calls s)%nat by lia
  end.

(** C2, as the code has it: a run is a function of what it reads from the
    environment.  Two runs that are returned the same 106 numbers by
    [Math.random] and the same 25 instants by [new Date] leave the same
    results and the same metrics, whatever else differs. *)
Theorem C2_same_draws_same_results source1 clock1 s1 source2 clock2 s2 :
  (forall k, (k < 106)%nat ->
             source1 (k + random_calls s1)%nat
             = source2 (k + random_calls s2)%nat) ->
  (forall k, (k < 25)%nat ->
             clock1 (k + date_calls s1)%nat = clock2 (k + date_calls s2)%nat) ->
  results (panel (execState (runOptimization source1 clock1) s1))
  = results (panel (execState (runOptimization source2 clock2) s2))
  /\ metrics (panel (execState (runOptimization source1 clock1) s1))
     = metrics (panel (execState (runOptimization source2 clock2) s2)).
Proof.
  intros Hr Hc. rewrite !run_results, !run_metrics. split.
  - unfold results_from. apply map_ext_in. intros j Hj.
    apply in_seq in Hj. rewrite !result_at_reads.
    shift_reads s1. shift_reads s2.
    rewrite !Hr, Hc by lia. reflexivity.
  - rewrite !metrics_at_reads.
    shift_reads s1. shift_reads s2.
    rewrite !Hr by lia. reflexivity.
Qed.

(** The theorem of C2 at work: a run from the initial page on a source that
    returns 0 for its first 106 calls, and a run after 7 calls on a source
    that always returns 0. *)
Lemma C2_same_draws_same_results_witness :
  results (panel (execState (runOptimization changing_source still_clock)
                            initial_page))
  = results (panel (execState (runOptimization all_zero still_clock)
                              (reads 7 3)))
  /\ metrics (panel (execState (runOptimization changing_source still_clock)
                               initial_page))
     = metrics (panel (execState (runOptimization all_zero still_clock)
                                 (reads 7 3))).
Proof.
  apply C2_same_draws_same_results; intros k Hk.
  - unfold changing_source, all_zero. cbn [random_calls initial_page].
    destruct (Nat.ltb_spec (k + 0) 106); [reflexivity | lia].
  - reflexivity.
Defined.

(** C2, as stated, fails: the run takes neither a fleet snapshot nor a
    configuration, and two runs in a row read different numbers from
    [Math.random].  With a source that returns 0 for its first 106 calls
    and 0.25 afterwards, the first run scores every trainset 70 and the
    second 77, and the metrics differ as well. *)
Lemma C2_second_run_differs :
  let first :=
    execState (runOptimization changing_source still_clock) initial_page in
  let second :=
    execState (runOptimization changing_source still_clock) first in
  map score (results (panel first)) = repeat 70 25
  /\ map score (results (panel second)) = repeat 77 25
  /\ results (panel first) <> results (panel second)
  /\ metrics (panel first) <> metrics (panel second).
Proof.
  vm_compute. repeat split; discriminate.
Qed.

(** ** Scores and metrics *)






(** ** Further properties of the fleet generator *)

(** X1: [Math.floor(Math.random() * n)] makes one call of [Math.random] and
    returns one of [0 .. n - 1], for every positive [n] below [2 ^ 53]. *)
Theorem random_below_range random_source n s :
  1 <= n < 2 ^ 53 ->
  0 <= fst (runState (random_below random_source n) s) < n
  /\ snd (runState (random_below random_source n) s) = advance 1 0 s.
Proof.
  intros Hn. split; [| reflexivity].
  cbn [random_below Math_random bind ret Monad_state runState fst].
  apply floor_random_mul, Hn.
Qed.

Lemma random_below_range_witness :
  0 <= fst (runState (random_below (fun _ => three_quarter_draw) 30)
                     initial_page) < 30
  /\ snd (runState (random_below (fun _ => three_quarter_draw) 30)
                   initial_page) = advance 1 0 initial_page.
Proof.
  apply (random_below_range (fun _ => three_quarter_draw) 30 initial_page).
  lia.
Defined.

Lemma trainset_at_reads random_source clock i r c :
  trainset_at random_source clock i r c
  = let below k n :=
      Number.floor (Number.mul (value (random_source (k + r)%nat)) #n) in
    let above k d := Number.gtb (value (random_source (k + r)%nat)) d in
    {| id := ("train-" ++ String_of (Z.of_nat i + 1))%string;
       number :=
         ("KMRL-" ++ padStart (String_of (Z.of_nat i + 1)) 3 "0")%string;
       status :=
         index [operational; standby_status; maintenance_status; critical]
               (below 0%nat 4);
       fitness :=
         Fitness.mk (above 1%nat (decimal 1 10)) (above 2%nat (decimal 5 100))
                    (above 3%nat (decimal 8 100));
       jobCards := JobCards.mk (below 4%nat 5) (below 5%nat 10 + 5);
       branding :=
         Branding.mk (index [high; medium; low] (below 6%nat 3))
                     (below 7%nat 100) 85;
       mileage :=
         Mileage.mk (below 8%nat 50000 + 10000) 45000
                    (below 9%nat 10000 - 5000);
       cleaning :=
         Cleaning.mk (above 10%nat (decimal 3 10)) (below 11%nat 5 + 1);
       stablingBay :=
         StablingBay.mk ("Bay-" ++ String_of (below 12%nat 8 + 1))%string
                        ("Bay-" ++ String_of (below 13%nat 8 + 1))%string
                        (below 14%nat 30 + 5);
       lastUpdated := clock c;
       recommendedAction :=
         index [induct; standby; maintenance] (below 15%nat 3);
       confidenceScore := below 16%nat 30 + 70 |}.
Proof. reflexivity. Qed.

(** [xs[k]] is an element of [xs] when [k] is one of its indices. *)
Lemma index_defined {A} (xs : list A) k :
  0 <= k < Z.of_nat (List.length xs) -> exists a, index xs k = Some a.
Proof.
  intros H. unfold index.
  destruct (Z.ltb_spec k 0) as [| _]; [lia |].
  destruct (nth_error xs (Z.to_nat k)) as [a |] eqn:E; [exists a; reflexivity |].
  apply nth_error_None in E. lia.
Qed.

Lemma bay_name_known k :
  0 <= k < 8 -> In ("Bay-" ++ String_of (k + 1))%string bay_names.
Proof.
  intros H.
  assert (k = 0 \/ k = 1 \/ k = 2 \/ k = 3 \/ k = 4 \/ k = 5 \/ k = 6 \/ k = 7)
    as E by lia.
  repeat (destruct E as [-> | E]; [vm_compute; tauto |]).
  subst k. vm_compute. tauto.
Qed.

(** Collects the range of every [Math.floor(Math.random() * n)] of the
    goal. *)
Ltac pose_floor_ranges :=
  repeat match goal with
  | |- context [Number.floor (Number.mul (value ?a) #?n)] =>
      lazymatch goal with
      | _ : 0 <= Number.floor (Number.mul (value a) #n) < n |- _ => fail
      | _ => pose proof (floor_random_mul a n ltac:(lia))
      end
  end.

(** X2: every generated trainset is well formed: its status, branding priority
    and recommended action are defined, its branding exposure is one of
    0..99 against the target 85, its cleaning priority one of 1..5, its
    shunting time one of 5..34 minutes, and both its bays are among
    ["Bay-1"] to ["Bay-8"]. *)
Theorem generated_trainsets_well_formed random_source clock s :
  Forall (fun t =>
            (exists st, status t = Some st)
            /\ (exists p, Branding.priority (branding t) = Some p)
            /\ (exists a, recommendedAction t = Some a)
            /\ 0 <= Branding.exposure (branding t) <= 99
            /\ Branding.target (branding t) = 85
            /\ 1 <= Cleaning.priority (cleaning t) <= 5
            /\ 5 <= StablingBay.shuntingTime (stablingBay t) <= 34
            /\ In (StablingBay.current (stablingBay t)) bay_names
            /\ In (StablingBay.optimal (stablingBay t)) bay_names)
         (evalState (generateTrainsetData random_source clock) s).
Proof.
  rewrite generated_fleet. apply Forall_forall. intros t H.
  apply in_fleet_from in H. destruct H as (j & _ & ->).
  rewrite trainset_at_reads. cbv zeta.
  cbn [status branding recommendedAction cleaning stablingBay
       Branding.priority Branding.exposure Branding.target Cleaning.priority
       StablingBay.shuntingTime StablingBay.current StablingBay.optimal].
  pose_floor_ranges.
  repeat split; try lia;
    try (apply index_defined; cbn [List.length]; lia);
    apply bay_name_known; lia.
Qed.

(** X3: whatever the random source, the fleet holds 25 trainsets whose
    identifiers are ["train-1"] to ["train-25"] and whose numbers are
    ["KMRL-001"] to ["KMRL-025"], in this order; no identifier and no
    number occurs twice. *)
Theorem generated_fleet_identifiers random_source clock s :
  let fleet := evalState (generateTrainsetData random_source clock) s in
  map id fleet = trainset_ids
  /\ map number fleet = trainset_numbers
  /\ NoDup (map id fleet)
  /\ NoDup (map number fleet).
Proof.
  cbv zeta. rewrite generated_fleet.
  assert (Hid : map id (fleet_from random_source clock
                                   (random_calls s) (date_calls s))
                = trainset_ids).
  { unfold fleet_from, trainset_ids. rewrite map_map. reflexivity. }
  rewrite Hid, fleet_numbers.
  repeat split; try reflexivity.
  - apply distinct_NoDup. vm_compute. reflexivity.
  - apply trainset_numbers_NoDup.
Qed.

(** ** The figures of the dashboard *)

(** X4: the fitness score is 100 exactly when the three certificates are
    valid, 0 exactly when none is, and 33 or 67 otherwise: a third of the
    certificates counts for 33 points and two thirds for 67. *)
Theorem getFitnessScore_values (f : Fitness.t) :
  In (getFitnessScore f) [0; 33; 67; 100]
  /\ (getFitnessScore f = 100 <->
      Fitness.rollingStock f = true /\ Fitness.signalling f = true
      /\ Fitness.telecom f = true)
  /\ (getFitnessScore f = 0 <->
      Fitness.rollingStock f = false /\ Fitness.signalling f = false
      /\ Fitness.telecom f = false)
  /\ getFitnessScore f
     = nth (List.length
              (filter (fun b : bool => b)
                      [Fitness.rollingStock f; Fitness.signalling f;
                       Fitness.telecom f]))
           [0; 33; 67; 100] 0.
Proof.
  destruct f as [[] [] []]; vm_compute;
    (split; [tauto |]);
    (split; [split; [intros H; try discriminate H; auto
                    | intros (H1 & H2 & H3); try discriminate; reflexivity] |]);
    (split; [split; [intros H; try discriminate H; auto
                    | intros (H1 & H2 & H3); try discriminate; reflexivity] |]);
    reflexivity.
Qed.

Lemma recommended_partition (ts : list TrainsetStatus) :
  Forall (fun t => exists a, recommendedAction t = Some a) ts ->
  readyForService ts + onStandby ts + maintenanceRequired ts
  = Z.of_nat (List.length ts).
Proof.
  unfold readyForService, onStandby, maintenanceRequired, count.
  induction 1 as [| t ts (a & Ha) _ IH]; [reflexivity |].
  assert (E1 : recommended_is induct t
               = match a with induct => true | _ => false end)
    by (unfold recommended_is; rewrite Ha; destruct a; reflexivity).
  assert (E2 : recommended_is standby t
               = match a with standby => true | _ => false end)
    by (unfold recommended_is; rewrite Ha; destruct a; reflexivity).
  assert (E3 : recommended_is maintenance t
               = match a with maintenance => true | _ => false end)
    by (unfold recommended_is; rewrite Ha; destruct a; reflexivity).
  cbn [filter]. rewrite E1, E2, E3.
  destruct a; cbn [List.length]; lia.
Qed.

Lemma fleet_actions_defined random_source clock r c :
  Forall (fun t => exists a, recommendedAction t = Some a)
         (fleet_from random_source clock r c).
Proof.
  apply Forall_forall. intros t H.
  apply in_fleet_from in H. destruct H as (j & _ & ->).
  rewrite trainset_at_reads. cbv zeta. cbn [recommendedAction].
  pose_floor_ranges. apply index_defined. cbn [List.length]. lia.
Qed.

Lemma fleet_from_length random_source clock r c :
  List.length (fleet_from random_source clock r c) = 25%nat.
Proof. unfold fleet_from. rewrite length_map, length_seq. reflexivity. Qed.

Lemma count_range {A} (p : A -> bool) xs :
  0 <= count p xs <= Z.of_nat (List.length xs).
Proof.
  unfold count. pose proof (filter_length_le p xs). lia.
Qed.

(** X5: the three cards of the dashboard share the generated fleet out: the
    trainsets ready for service, on standby and in the maintenance queue
    add up to the 25 of the fleet, and at most 25 are critical. *)
Theorem dashboard_cards_partition random_source clock s :
  let fleet := evalState (generateTrainsetData random_source clock) s in
  readyForService fleet + onStandby fleet + maintenanceRequired fleet = 25
  /\ 0 <= readyForService fleet
  /\ 0 <= onStandby fleet
  /\ 0 <= maintenanceRequired fleet
  /\ 0 <= criticalAlerts fleet <= 25.
Proof.
  cbv zeta. rewrite generated_fleet.
  rewrite recommended_partition by apply fleet_actions_defined.
  pose proof (count_range (recommended_is induct)
                (fleet_from random_source clock (random_calls s) (date_calls s))).
  pose proof (count_range (recommended_is standby)
                (fleet_from random_source clock (random_calls s) (date_calls s))).
  pose proof (count_range (recommended_is maintenance)
                (fleet_from random_source clock (random_calls s) (date_calls s))).
  pose proof (count_range is_critical
                (fleet_from random_source clock (random_calls s) (date_calls s))).
  rewrite fleet_from_length in *.
  unfold readyForService, onStandby, maintenanceRequired, criticalAlerts.
  lia.
Qed.

(** [(k / 25) * 100] rounds to [4 * k] for every count [k] of a fleet of
    25: the two roundings of the division and of the product never move
    the figure. *)
Lemma percent_of_25 (k : nat) :
  (k <= 25)%nat ->
  Math_round (Number.mul (Number.div #(Z.of_nat k) #25) #100)
  = 4 * Z.of_nat k.
Proof.
  intros H.
  do 26 (destruct k as [| k]; [vm_compute; reflexivity |]).
  lia.
Qed.

Lemma percentages_of_25 (ts : list TrainsetStatus) :
  List.length ts = 25%nat ->
  readyPercent ts = Some (4 * readyForService ts)
  /\ fleetAvailability ts = Some (100 - 4 * criticalAlerts ts).
Proof.
  intros H.
  pose proof (filter_length_le (recommended_is induct) ts) as Hr.
  pose proof (filter_length_le is_critical ts) as Hc.
  unfold readyPercent, fleetAvailability, readyForService, criticalAlerts,
    count.
  rewrite H in *. change (Z.of_nat 25) with 25. change (25 =? 0) with false.
  cbv iota. split.
  - rewrite percent_of_25 by exact Hr. reflexivity.
  - replace (25 - Z.of_nat (List.length (filter is_critical ts)))
      with (Z.of_nat (25 - List.length (filter is_critical ts))) by lia.
    rewrite percent_of_25 by lia. apply f_equal. lia.
Qed.

(** X6: for the generated fleet the two percentages of the dashboard are
    exact: "ready for service" is 4 times the number of trainsets to
    induct, and the fleet availability is 100 minus 4 times the number of
    critical trainsets; both lie between 0 and 100. *)
Theorem dashboard_percentages random_source clock s :
  let fleet := evalState (generateTrainsetData random_source clock) s in
  readyPercent fleet = Some (4 * readyForService fleet)
  /\ fleetAvailability fleet = Some (100 - 4 * criticalAlerts fleet)
  /\ 0 <= 4 * readyForService fleet <= 100
  /\ 0 <= 100 - 4 * criticalAlerts fleet <= 100.
Proof.
  cbv zeta. rewrite generated_fleet.
  pose proof (fleet_from_length random_source clock
                                (random_calls s) (date_calls s)) as Hlen.
  destruct (percentages_of_25 _ Hlen) as [Hr Hc].
  pose proof (count_range (recommended_is induct)
                (fleet_from random_source clock (random_calls s) (date_calls s)))
    as Br.
  pose proof (count_range is_critical
                (fleet_from random_source clock (random_calls s) (date_calls s)))
    as Bc.
  rewrite Hlen in Br, Bc.
  split; [exact Hr |]. split; [exact Hc |].
  unfold readyForService, criticalAlerts. lia.
Qed.

(** ** Further properties of a run *)

(** X8: every result gives between one and four reasons, the first of the
    list [all_reasoning] in order, so the first reason is always "All
    fitness certificates valid"; it gives at most two constraints, the
    first of the list [all_constraints], and never the third, "Bay
    repositioning needed". *)
Theorem result_reasoning_and_constraints random_source clock s :
  Forall (fun r =>
            (exists n, (1 <= n <= 4)%nat
                       /\ reasoning r = firstn n all_reasoning)
            /\ hd_error (reasoning r)
               = Some "All fitness certificates valid"%string
            /\ (exists m, (m <= 2)%nat
                          /\ constraints r = firstn m all_constraints)
            /\ ~ In "Bay repositioning needed"%string (constraints r))
         (results (panel (execState (runOptimization random_source clock) s))).
Proof.
  rewrite run_results. apply Forall_forall. intros r H.
  apply in_results_from in H. destruct H as (j & _ & ->).
  rewrite result_at_reads. cbn [reasoning constraints].
  pose_floor_ranges.
  set (k4 := Number.floor (Number.mul _ #4)) in *.
  set (k3 := Number.floor (Number.mul _ #3)) in *.
  clearbody k4 k3.
  assert (E4 : k4 = 0 \/ k4 = 1 \/ k4 = 2 \/ k4 = 3) by lia.
  assert (E3 : k3 = 0 \/ k3 = 1 \/ k3 = 2) by lia.
  split; [| split; [| split]].
  - destruct E4 as [-> | [-> | [-> | ->]]];
      [exists 1%nat | exists 2%nat | exists 3%nat | exists 4%nat];
      (split; [lia | reflexivity]).
  - destruct E4 as [-> | [-> | [-> | ->]]]; reflexivity.
  - destruct E3 as [-> | [-> | ->]];
      [exists 0%nat | exists 1%nat | exists 2%nat];
      (split; [lia | reflexivity]).
  - destruct E3 as [-> | [-> | ->]]; vm_compute;
      intros Hin; repeat (destruct Hin as [Hin | Hin]; [discriminate Hin |]);
      exact Hin.
Qed.

Lemma action_is_true a r : action_is a r = true <-> action r = Some a.
Proof.
  unfold action_is. destruct (action r) as [[] |], a; split;
    intros H; try reflexivity; discriminate H.
Qed.

Lemma action_partition (rs : list OptimizationResult) :
  Forall (fun r => exists a, action r = Some a) rs ->
  count (action_is induct) rs + count (action_is standby) rs
  + count (action_is maintenance) rs
  = Z.of_nat (List.length rs).
Proof.
  unfold count.
  induction 1 as [| r rs (a & Ha) _ IH]; [reflexivity |].
  assert (E1 : action_is induct r
               = match a with induct => true | _ => false end)
    by (unfold action_is; rewrite Ha; destruct a; reflexivity).
  assert (E2 : action_is standby r
               = match a with standby => true | _ => false end)
    by (unfold action_is; rewrite Ha; destruct a; reflexivity).
  assert (E3 : action_is maintenance r
               = match a with maintenance => true | _ => false end)
    by (unfold action_is; rewrite Ha; destruct a; reflexivity).
  cbn [filter]. rewrite E1, E2, E3.
  destruct a; cbn [List.length]; lia.
Qed.

Lemma results_actions_defined random_source clock r c :
  Forall (fun x => exists a, action x = Some a)
         (results_from random_source clock r c).
Proof.
  apply Forall_forall. intros x H.
  apply in_results_from in H. destruct H as (j & _ & ->).
  rewrite result_at_action. apply index_action_defined.
  apply floor_random_mul. lia.
Qed.

(** X9: after a run the counts in the titles of the three tabs add up to the
    25 results: every trainset is under exactly one of "For Induction",
    "Standby" and "Maintenance". *)
Theorem tab_counts_partition random_source clock s :
  let p := panel (execState (runOptimization random_source clock) s) in
  tab_count induct p + tab_count standby p + tab_count maintenance p = 25
  /\ 0 <= tab_count induct p
  /\ 0 <= tab_count standby p
  /\ 0 <= tab_count maintenance p.
Proof.
  cbv zeta. unfold tab_count. rewrite run_results.
  rewrite action_partition by apply results_actions_defined.
  unfold results_from. rewrite length_map, length_seq.
  unfold count. repeat split; lia.
Qed.

(** X10: a run replaces what the panel held, whatever it was: it ends with the
    spinner off, the eleven messages of [logs] and nothing else in the
    log, 25 results and the metrics, so that the results are shown and
    the invitation to run is not; it has made 106 calls of [Math.random]
    and 25 of [new Date]. *)
Theorem run_leaves_panel_complete random_source clock s :
  let s' := execState (runOptimization random_source clock) s in
  isOptimizing (panel s') = false
  /\ optimizationLogs (panel s') = logs
  /\ List.length (results (panel s')) = 25%nat
  /\ metrics (panel s') <> None
  /\ shows_results (panel s') = true
  /\ shows_placeholder (panel s') = false
  /\ shows_progress (panel s') = false
  /\ random_calls s' = (106 + random_calls s)%nat
  /\ date_calls s' = (25 + date_calls s)%nat.
Proof.
  cbv zeta. unfold execState. rewrite runOptimization_run.
  cbn [snd panel isOptimizing optimizationLogs results metrics random_calls
       date_calls].
  unfold shows_results, shows_placeholder, shows_progress.
  cbn [metrics results isOptimizing].
  unfold results_from. rewrite length_map, length_seq.
  repeat split. discriminate.
Qed.

Lemma first_logs k :
  (k <= 11)%nat ->
  map (fun j => nth j logs ""%string) (seq 0 k) = firstn k logs.
Proof.
  intros H. do 12 (destruct k as [| k]; [reflexivity |]). lia.
Qed.

(** X11: the log and the progress advance together: after [k] rounds of the
    simulated process, [k] at most 11, the log has gained the first [k]
    messages of [logs], the progress signal the [k] values
    [((i + 1) / 11) * 100], and the progress shown is that of the last
    round; the results, the metrics and the two oracles are untouched. *)
Theorem simulate_rounds_lockstep k s :
  (k <= 11)%nat ->
  let s' := execState (simulate_rounds k) s in
  optimizationLogs (panel s') = optimizationLogs (panel s) ++ firstn k logs
  /\ progress_signal s'
     = progress_signal s ++ map progress_value (seq 0 k)
  /\ progress (panel s')
     = last (map progress_value (seq 0 k)) (progress (panel s))
  /\ results (panel s') = results (panel s)
  /\ metrics (panel s') = metrics (panel s)
  /\ isOptimizing (panel s') = isOptimizing (panel s)
  /\ random_calls s' = random_calls s
  /\ date_calls s' = date_calls s.
Proof.
  intros H. cbv zeta. unfold execState, simulate_rounds.
  rewrite simulate_loop_run.
  cbn [snd panel optimizationLogs progress_signal progress results metrics
       isOptimizing random_calls date_calls].
  rewrite first_logs by exact H. repeat split.
Qed.

Lemma simulate_rounds_lockstep_witness :
  optimizationLogs (panel (execState (simulate_rounds 2) initial_page))
  = optimizationLogs (panel initial_page) ++ firstn 2 logs
  /\ progress_signal (execState (simulate_rounds 2) initial_page)
     = progress_signal initial_page ++ map progress_value (seq 0 2)
  /\ progress (panel (execState (simulate_rounds 2) initial_page))
     = last (map progress_value (seq 0 2)) (progress (panel initial_page))
  /\ results (panel (execState (simulate_rounds 2) initial_page))
     = results (panel initial_page)
  /\ metrics (panel (execState (simulate_rounds 2) initial_page))
     = metrics (panel initial_page)
  /\ isOptimizing (panel (execState (simulate_rounds 2) initial_page))
     = isOptimizing (panel initial_page)
  /\ random_calls (execState (simulate_rounds 2) initial_page)
     = random_calls initial_page
  /\ date_calls (execState (simulate_rounds 2) initial_page)
     = date_calls initial_page.
Proof.
  apply (simulate_rounds_lockstep 2 initial_page). lia.
Defined.

(** ** Further properties of the tabs *)

Lemma sort_insert_head x l :
  Forall (fun z => score z <= score x) l ->
  sort_insert by_score_desc x l = x :: l.
Proof.
  intros H. destruct l as [| y l]; [reflexivity |].
  cbn [sort_insert]. unfold by_score_desc.
  inversion H as [| ? ? Hy _]; subst.
  destruct (Z.leb_spec (score y - score x) 0); [reflexivity | lia].
Qed.

(** Sorting a list that is in descending order of score leaves it as it
    is. *)
Lemma Array_sort_sorted l :
  StronglySorted score_ge l -> Array_sort by_score_desc l = l.
Proof.
  induction 1 as [| x l Hs IH Hx]; [reflexivity |].
  cbn [Array_sort]. rewrite IH. apply sort_insert_head.
  eapply Forall_impl; [| exact Hx]. unfold score_ge. intros; assumption.
Qed.

Lemma filter_Forall {A} (P : A -> Prop) (p : A -> bool) l :
  Forall P l -> Forall P (filter p l).
Proof.
  induction 1 as [| x l Hx _ IH]; cbn [filter]; [constructor |].
  destruct (p x); [constructor; assumption | assumption].
Qed.

Lemma filter_sorted (p : OptimizationResult -> bool) l :
  StronglySorted score_ge l -> StronglySorted score_ge (filter p l).
Proof.
  induction 1 as [| x l Hs IH Hx]; cbn [filter]; [constructor |].
  destruct (p x); [| exact IH].
  constructor; [exact IH | apply filter_Forall, Hx].
Qed.

Lemma filter_sort_insert (p : OptimizationResult -> bool) x l :
  StronglySorted score_ge l ->
  filter p (sort_insert by_score_desc x l)
  = if p x then sort_insert by_score_desc x (filter p l) else filter p l.
Proof.
  induction 1 as [| y l Hs IH Hy].
  - cbn [sort_insert filter]. destruct (p x); reflexivity.
  - cbn [sort_insert]. unfold by_score_desc at 1.
    destruct (Z.leb_spec (score y - score x) 0) as [Hc | Hc].
    + change (filter p (x :: y :: l))
        with (if p x then x :: filter p (y :: l) else filter p (y :: l)).
      destruct (p x); [| reflexivity].
      symmetry. apply sort_insert_head. apply filter_Forall.
      constructor; [lia |].
      eapply Forall_impl; [| exact Hy]. unfold score_ge. intros; lia.
    + cbn [filter]. rewrite IH.
      destruct (p x), (p y); try reflexivity.
      cbn [sort_insert]. unfold by_score_desc at 2.
      destruct (Z.leb_spec (score y - score x) 0); [lia | reflexivity].
Qed.

(** Filtering the sorted list and sorting the filtered list give the same
    list. *)
Lemma filter_Array_sort (p : OptimizationResult -> bool) l :
  filter p (Array_sort by_score_desc l)
  = Array_sort by_score_desc (filter p l).
Proof.
  induction l as [| x l IH]; [reflexivity |].
  cbn [Array_sort filter].
  rewrite filter_sort_insert by apply Array_sort_by_score.
  rewrite IH. destruct (p x); reflexivity.
Qed.

(** X12: the tab of an action shows, in descending order of score, exactly the
    results of the panel that carry this action. *)
Theorem action_tab_contents (a : Action) (p : PanelState) :
  StronglySorted score_ge (action_tab a p)
  /\ (forall r, In r (action_tab a p)
                <-> In r (results p) /\ action r = Some a)
  /\ Z.of_nat (List.length (action_tab a p)) = tab_count a p.
Proof.
  unfold action_tab, tab_count, count.
  split; [apply Array_sort_by_score |]. split.
  - intros r. rewrite <- action_is_true, <- filter_In. split; intros H.
    + eapply Permutation_in; [symmetry; apply Array_sort_perm | exact H].
    + eapply Permutation_in; [apply Array_sort_perm | exact H].
  - f_equal. symmetry. apply Permutation_length, Array_sort_perm.
Qed.

(** X13: the tabs agree with one another: the tab of an action is the "All
    Trainsets" view with the other actions left out, in the same order,
    and it shows the same list whether or not the "All Trainsets" tab has
    already sorted the results of the panel in place. *)
Theorem action_tab_agrees_with_all_tab (a : Action) (p : PanelState) :
  action_tab a p = filter (action_is a) (snd (all_tab p))
  /\ action_tab a (fst (all_tab p)) = action_tab a p.
Proof.
  unfold action_tab, all_tab. cbn [fst snd results].
  split.
  - symmetry. apply filter_Array_sort.
  - rewrite filter_Array_sort. apply Array_sort_sorted, Array_sort_by_score.
Qed.

(** X14: showing the "All Trainsets" tab again changes nothing: once the
    results of the panel have been sorted in place, sorting them again
    gives the same panel and the same view. *)
Theorem all_tab_idempotent (p : PanelState) :
  all_tab (fst (all_tab p)) = all_tab p.
Proof.
  unfold all_tab. cbn [fst results isOptimizing progress metrics
                       optimizationLogs].
  rewrite Array_sort_sorted by apply Array_sort_by_score. reflexivity.
Qed.

(** X15: the sort breaks no tie: in the "All Trainsets" view the results of
    one and the same score stand in the order the panel held them in. *)
Theorem all_tab_keeps_ties_in_order (p : PanelState) (k : Z) :
  filter (fun r => score r =? k) (snd (all_tab p))
  = filter (fun r => score r =? k) (results p).
Proof.
  unfold all_tab. cbn [snd]. apply Array_sort_stable.
Qed.
